(** * A shallow embedding of the Vault secrets component

    The Go package [vault] wraps the third-party client
    [github.com/riotgames/vault-go-client].  It reads its configuration from
    the process environment, authenticates once at construction time through
    a two-step login chain, and afterwards reads one field of a key-value
    document per call of [GetSecret].

    The development has three layers:
    - [Go]: the fragment of the Go runtime and of the packages [fmt],
      [errors] and [os] that the source relies on;
    - [vaultclient]: the signature of the wrapped client library, a black
      box whose answers are supplied by the environment;
    - [vault]: the package itself, translated function by function. *)

From Stdlib Require Import ZArith Ascii String.
From stdpp Require Import base option strings list gmap.

Set Default Proof Using "Type".
#[local] Set Warnings "-register-all".

(** ** The Go fragment *)

Module Go.

(** Values of the interface type [error].  A nil error is [None] in
    [option error].  [errorString] is what [errors.New] builds,
    [wrapError] and [wrapErrors] are what [fmt.Errorf] builds when the
    format holds one, respectively several, [%w] verbs.  [foreignError]
    stands for an error value whose dynamic type belongs to another
    package (here: the client library); it carries the name of that type
    and its [Error()] text. *)
Inductive error : Type :=
| errorString (s : string)
| wrapError (msg : string) (err : error)
| wrapErrors (msg : string) (errs : list error)
| foreignError (typeName : string) (msg : string).

(** The method [Error() string]. *)
Definition Error (e : error) : string :=
  match e with
  | errorString s => s
  | wrapError msg _ => msg
  | wrapErrors msg _ => msg
  | foreignError _ msg => msg
  end.

(** The errors reachable in one step through [Unwrap() error] or
    [Unwrap() []error]; this is the relation [errors.Is] and [errors.As]
    walk. *)
Definition Unwrap (e : error) : list error :=
  match e with
  | errorString _ => []
  | wrapError _ err => [err]
  | wrapErrors _ errs => errs
  | foreignError _ _ => []
  end.

(** The dynamic type of an error value, as [reflect.TypeOf(e).String()]
    prints it. *)
Definition typeName (e : error) : string :=
  match e with
  | errorString _ => "*errors.errorString"
  | wrapError _ _ => "*fmt.wrapError"
  | wrapErrors _ _ => "*fmt.wrapErrors"
  | foreignError t _ => t
  end.

(** Values of the empty interface [interface{}] as the JSON decoder of the
    client library produces them. *)
Inductive any : Type :=
| anyNil
| anyString (s : string)
| anyBool (b : bool)
| anyNumber (digits : string)
| anySlice (l : list any)
| anyMap (m : gmap string any).

(** Run-time panics raised by the language itself. *)
Inductive panic : Type :=
| nilDereference
| interfaceConversion (dynamic : option string) (wanted : string).

(** How a call ends: it returns, it panics, or the process exits. *)
Inductive outcome (A : Type) : Type :=
| Returned (a : A)
| Panicked (p : panic)
| Exited (code : Z).
Arguments Returned {A} a.
Arguments Panicked {A} p.
Arguments Exited {A} code.

(** The name of the dynamic type of an interface value; [None] for the nil
    interface. *)
Definition dynamicType (v : any) : option string :=
  match v with
  | anyNil => None
  | anyString _ => Some "string"
  | anyBool _ => Some "bool"
  | anyNumber _ => Some "json.Number"
  | anySlice _ => Some "[]interface {}"
  | anyMap _ => Some "map[string]interface {}"
  end.

(** The single-result type assertions [v.(string)] and
    [v.(map[string]interface{})].  Without the comma-ok form a mismatch is
    a run-time panic. *)
Definition assertString (v : any) : outcome string :=
  match v with
  | anyString s => Returned s
  | _ => Panicked (interfaceConversion (dynamicType v) "string")
  end.

Definition assertMap (v : any) : outcome (gmap string any) :=
  match v with
  | anyMap m => Returned m
  | _ => Panicked (interfaceConversion (dynamicType v) "map[string]interface {}")
  end.

(** Indexing a [map[string]interface{}]: an absent key yields the zero
    value of the element type, the nil interface. *)
Definition index (m : gmap string any) (k : string) : any :=
  default anyNil (m !! k).

(** [os.Getenv]: the value of the variable, or the empty string when the
    variable is not set. *)
Definition Getenv (env : gmap string string) (key : string) : string :=
  default "" (env !! key).

(** *** Formatting

    Operands of the [fmt] functions.  The package only ever passes strings
    and errors. *)
Inductive arg : Type :=
| argString (s : string)
| argError (e : error).

(** What [%s] and [%v] print for an operand: a string as it is, an error
    through its [Error] method. *)
Definition argText (a : arg) : string :=
  match a with
  | argString s => s
  | argError e => Error e
  end.

Definition argType (a : arg) : string :=
  match a with
  | argString _ => "string"
  | argError e => typeName e
  end.

(** [%!verb(type=value)], the rendering of a verb that does not fit its
    operand. *)
Definition badVerb (verb : ascii) (a : arg) : string :=
  "%!" +:+ String verb ("(" +:+ argType a +:+ "=" +:+ argText a +:+ ")").

(** One pass over the format, as the printer of package [fmt] does it, for
    the verbs the package uses: [%s], [%v], [%w] and [%%].  The result is
    the text and the operands wrapped by [%w], in order of appearance.
    [%w] is
    only honoured when [wrapErrs] is set (that is, under [Errorf]) and the
    operand is an error; it then prints like [%v].  Flags, widths, explicit
    argument indexes and the remaining verbs are outside the fragment;
    such a verb is rendered with [badVerb], and operands left over at the
    end of the format are dropped. *)
Fixpoint doPrintf (wrapErrs : bool) (format : string) (a : list arg)
  : string * list error :=
  match format with
  | EmptyString => (EmptyString, [])
  | String "%" EmptyString => ("%!(NOVERB)", [])
  | String "%" (String verb rest) =>
      if Ascii.eqb verb "%" then
        let '(s, w) := doPrintf wrapErrs rest a in (String "%" s, w)
      else
        match a with
        | [] =>
            let '(s, w) := doPrintf wrapErrs rest [] in
            ("%!" +:+ String verb ("(MISSING)" +:+ s), w)
        | x :: a' =>
            let '(s, w) := doPrintf wrapErrs rest a' in
            if Ascii.eqb verb "s" || Ascii.eqb verb "v" then
              (argText x +:+ s, w)
            else if Ascii.eqb verb "w" then
              match x with
              | argError e =>
                  if wrapErrs then (Error e +:+ s, e :: w)
                  else (badVerb verb x +:+ s, w)
              | argString _ => (badVerb verb x +:+ s, w)
              end
            else (badVerb verb x +:+ s, w)
        end
  | String c rest =>
      let '(s, w) := doPrintf wrapErrs rest a in (String c s, w)
  end.

(** [fmt.Sprintf]. *)
Definition Sprintf (format : string) (a : list arg) : string :=
  (doPrintf false format a).1.

(** [fmt.Errorf]: without [%w] the result is [errors.New] of the text,
    with one [%w] a [wrapError], with more a [wrapErrors] holding all the
    wrapped operands. *)
Definition Errorf (format : string) (a : list arg) : error :=
  let '(s, w) := doPrintf true format a in
  match w with
  | [] => errorString s
  | [err] => wrapError s err
  | errs => wrapErrors s errs
  end.

End Go.

(** ** The logger

    [*zap.Logger] values are handles: [L] is the process-wide logger that
    [zap.L()] returns, [Named] any logger the caller built. *)

Module zap.

Inductive Logger : Type :=
| L
| Named (name : string).

Inductive Level : Type :=
| DebugLevel
| InfoLevel
| FatalLevel.

End zap.

(** ** The wrapped client library

    Only the types and the operations the package mentions.  The library is
    a black box: what its calls answer, and how they change the outside
    world (the server, the session token), is given by a [Library] record
    over an arbitrary type [World] of world states and an arbitrary type
    [Client] of client handles. *)

Module vaultclient.

(** [vault.Config]; [Address] is the only field the package assigns. *)
Record Config : Type := { Address : string }.

Record IAMLoginOptions : Type :=
  { IAM_Role : string; IAM_MountPath : string }.

Record AppRoleLoginOptions : Type :=
  { AppRole_RoleID : string; AppRole_SecretID : string;
    AppRole_MountPath : string }.

Record KV2GetOptions : Type :=
  { KV2_MountPath : string; KV2_SecretPath : string }.

(** The secret a read returns; [Data] is the decoded response body. *)
Record Secret : Type := { Data : gmap string Go.any }.

(** Pointers returned by the library are [option]s, [None] being nil.  The
    login calls also return a secret, which the package discards. *)
Record Library (World Client : Type) : Type :=
  { DefaultConfig : World -> Config * World;
    NewClient : Config -> World -> (option Client * option Go.error) * World;
    IAM_Login :
      Client -> IAMLoginOptions -> World -> option Go.error * World;
    AppRole_Login :
      Client -> AppRoleLoginOptions -> World -> option Go.error * World;
    KV2_Get :
      Client -> KV2GetOptions -> World ->
      (option Secret * option Go.error) * World }.
Arguments DefaultConfig {World Client} _ _.
Arguments NewClient {World Client} _ _ _.
Arguments IAM_Login {World Client} _ _ _ _.
Arguments AppRole_Login {World Client} _ _ _ _.
Arguments KV2_Get {World Client} _ _ _ _.

End vaultclient.

(** ** Effects

    A call of the package runs against the outside world.  It ends with an
    outcome, leaves the world in a new state, and leaves a trace of what it
    did: every call into the client library and every log line, in program
    order. *)

Module effects.
Section Effects.
Context {World Client : Type}.

Inductive event : Type :=
| EvLog (logger : zap.Logger) (level : zap.Level) (msg : string)
| EvDefaultConfig
| EvNewClient (cfg : vaultclient.Config)
| EvIAMLogin (client : Client) (o : vaultclient.IAMLoginOptions)
| EvAppRoleLogin (client : Client) (o : vaultclient.AppRoleLoginOptions)
| EvKV2Get (client : Client) (o : vaultclient.KV2GetOptions).

Record result (A : Type) : Type :=
  { out : Go.outcome A; world : World; trace : list event }.
Arguments out {A} _.
Arguments world {A} _.
Arguments trace {A} _.

Definition M (A : Type) : Type := World -> result A.

#[export] Instance M_ret : MRet M := fun A a w =>
  {| out := Go.Returned a; world := w; trace := [] |}.

(** Sequencing: a panic or an exit of the first part ends the whole; the
    traces of the two parts are joined. *)
#[export] Instance M_bind : MBind M := fun A B k m w =>
  match m w with
  | {| out := Go.Returned a; world := w1; trace := t1 |} =>
      match k a w1 with
      | {| out := o; world := w2; trace := t2 |} =>
          {| out := o; world := w2; trace := t1 ++ t2 |}
      end
  | {| out := Go.Panicked p; world := w1; trace := t1 |} =>
      {| out := Go.Panicked p; world := w1; trace := t1 |}
  | {| out := Go.Exited code; world := w1; trace := t1 |} =>
      {| out := Go.Exited code; world := w1; trace := t1 |}
  end.

(** A pure computation that may panic. *)
Definition run {A} (o : Go.outcome A) : M A := fun w =>
  {| out := o; world := w; trace := [] |}.

(** Dereferencing a pointer, or calling through a func value. *)
Definition deref {A} (p : option A) : M A :=
  match p with
  | Some a => mret a
  | None => run (Go.Panicked Go.nilDereference)
  end.

(** A call into the library: it is recorded, and the world moves on. *)
Definition call {A} (e : event) (f : World -> A * World) : M A := fun w =>
  let '(a, w1) := f w in
  {| out := Go.Returned a; world := w1; trace := [e] |}.

(** The logger methods.  [Fatal] writes the line and then calls
    [os.Exit(1)]: nothing after it runs. *)
Definition Info (l : zap.Logger) (msg : string) : M unit := fun w =>
  {| out := Go.Returned tt; world := w; trace := [EvLog l zap.InfoLevel msg] |}.

Definition Debug (l : zap.Logger) (msg : string) : M unit := fun w =>
  {| out := Go.Returned tt; world := w;
     trace := [EvLog l zap.DebugLevel msg] |}.

Definition Fatal {A} (l : zap.Logger) (msg : string) : M A := fun w =>
  {| out := Go.Exited 1; world := w; trace := [EvLog l zap.FatalLevel msg] |}.

End Effects.
Arguments event : clear implicits.
Arguments result : clear implicits.
Arguments M : clear implicits.
Arguments out {World Client A} _.
Arguments world {World Client A} _.
Arguments trace {World Client A} _.
End effects.

(** ** The package *)

Module vault.
Import effects.

(** *** Constants *)

Definition emptyStr : string := "".
Definition defaultURL : string := "https://your.vault.server.url/".

Definition envSpaceName : string := "SPACE_NAME".
Definition envSecretPath : string := "SECRET_PATH".
Definition envAWSIAMRoleARN : string := "IAM_ROLE_ARN".
Definition envAppRoleID : string := "APP_ROLE_ID".
Definition envAppRoleSecretID : string := "APP_ROLE_SECRET_ID".

Definition secretsMountPathFormat : string := "%s/secrets".
Definition awsLoginPathFormat : string := "%s/aws".
Definition appRoleLoginPathFormat : string := "%s/approle".

Definition errFmtConfigValidation : string :=
  "failed to validate Vault Provider config, %s is empty".

(** *** Configuration *)

Record Config : Type :=
  { SpaceName : string;
    SecretPath : string;
    SecretMountPath : string;
    AWSLoginPath : string;
    AppRoleLoginPath : string;
    AWSIAMRoleArn : string;
    AppRoleID : string;
    AppRoleSecretID : string }.

(** [NewConfig] reads the process environment, here the map [env]. *)
Definition NewConfig (env : gmap string string) : Config :=
  let spaceName := Go.Getenv env envSpaceName in
  {| SpaceName := spaceName;
     SecretPath := Go.Getenv env envSecretPath;
     SecretMountPath :=
       Go.Sprintf secretsMountPathFormat [Go.argString spaceName];
     AWSLoginPath := Go.Sprintf awsLoginPathFormat [Go.argString spaceName];
     AppRoleLoginPath :=
       Go.Sprintf appRoleLoginPathFormat [Go.argString spaceName];
     AWSIAMRoleArn := Go.Getenv env envAWSIAMRoleARN;
     AppRoleID := Go.Getenv env envAppRoleID;
     AppRoleSecretID := Go.Getenv env envAppRoleSecretID |}.

Definition getIAMLoginOptions (c : Config) : vaultclient.IAMLoginOptions :=
  {| vaultclient.IAM_Role := AWSIAMRoleArn c;
     vaultclient.IAM_MountPath := AWSLoginPath c |}.

Definition getAppRoleLoginOptions (c : Config)
  : vaultclient.AppRoleLoginOptions :=
  {| vaultclient.AppRole_RoleID := AppRoleID c;
     vaultclient.AppRole_SecretID := AppRoleSecretID c;
     vaultclient.AppRole_MountPath := AppRoleLoginPath c |}.

Section Package.

(** The two constants [Validate] names the required fields by are declared
    in a file of the package that is not part of the sources at hand; they
    are taken as parameters. *)
Variables propertySpaceName propertySecretPath : string.

Definition Validate (c : Config) : option Go.error :=
  if String.eqb (SpaceName c) emptyStr then
    Some (Go.Errorf errFmtConfigValidation [Go.argString propertySpaceName])
  else if String.eqb (SecretPath c) emptyStr then
    Some (Go.Errorf errFmtConfigValidation [Go.argString propertySecretPath])
  else None.

Context {World Client : Type} (lib : vaultclient.Library World Client).

#[local] Abbreviation M := (M World Client).

(** *** Options

    [AuthProvider] is [func(client *vault.Client) error].  The provider
    that [WithDefaultChainAuthProvider] installs is a closure over the
    pointer [o] to the options it is installed in: it reads [o.log] when it
    runs, which is after every option has been applied.  The first
    argument of an [AuthProvider] stands for that read; [NewComponent]
    supplies the [log] field of the final options. *)
Definition AuthProvider : Type :=
  zap.Logger -> option Client -> M (option Go.error).

(** The struct [options]; a nil [authProvider] is [None]. *)
Record options : Type :=
  { log : zap.Logger;
    url : string;
    authProvider : option AuthProvider }.

(** An [Option] mutates the options it is given. *)
Definition Option : Type := options -> options.

Definition WithLogger (l : zap.Logger) : Option := fun o =>
  {| log := l; url := url o; authProvider := authProvider o |}.

Definition WithURL (u : string) : Option := fun o =>
  {| log := log o; url := u; authProvider := authProvider o |}.

(** The local slice [errs] is appended to and never read. *)
Definition WithDefaultChainAuthProvider (config : Config) : Option := fun o =>
  {| log := log o;
     url := url o;
     authProvider := Some (fun o_log client =>
       let errs : list Go.error := [] in
       c ← deref client;
       iamErr ← call (EvIAMLogin c (getIAMLoginOptions config))
                  (vaultclient.IAM_Login lib c (getIAMLoginOptions config));
       match iamErr with
       | None =>
           Info o_log "Vault Client authed with AWS IAM method";;
           mret None
       | Some iamErr =>
           Debug o_log
             (Go.Sprintf "Vault Client IAM auth failed with err: %s"
                [Go.argString (Go.Error iamErr)]);;
           let errs := errs ++ [iamErr] in
           appRoleErr ←
             call (EvAppRoleLogin c (getAppRoleLoginOptions config))
               (vaultclient.AppRole_Login lib c
                  (getAppRoleLoginOptions config));
           match appRoleErr with
           | None =>
               Info o_log "Vault Client authed with AppRole method";;
               mret None
           | Some appRoleErr =>
               Debug o_log
                 (Go.Sprintf "Vault Client AppRole auth failed with err: %s"
                    [Go.argString (Go.Error appRoleErr)]);;
               let errs := errs ++ [appRoleErr] in
               mret (Some (Go.Errorf "%w; %w"
                             [Go.argError iamErr; Go.argError appRoleErr]))
           end
       end) |}.

Definition WithIAMAuthProvider (loginOptions : vaultclient.IAMLoginOptions)
  : Option := fun o =>
  {| log := log o;
     url := url o;
     authProvider := Some (fun _ client =>
       c ← deref client;
       call (EvIAMLogin c loginOptions)
         (vaultclient.IAM_Login lib c loginOptions)) |}.

Definition WithAppRoleAuthProvider
  (loginOptions : vaultclient.AppRoleLoginOptions) : Option := fun o =>
  {| log := log o;
     url := url o;
     authProvider := Some (fun _ client =>
       c ← deref client;
       call (EvAppRoleLogin c loginOptions)
         (vaultclient.AppRole_Login lib c loginOptions)) |}.

Definition createDefaultOptions (config : Config) : options :=
  let opts := {| log := zap.L; url := defaultURL; authProvider := None |} in
  WithDefaultChainAuthProvider config opts.

(** *** The component *)

Record Component : Type :=
  { config : Config;
    vaultClient : option Client }.

Definition NewComponent (config : Config) (options : list Option)
  : M Component :=
  let opts :=
    foldl (fun opts option => option opts) (createDefaultOptions config)
      options in
  match Validate config with
  | Some validateErr => Fatal (log opts) (Go.Error validateErr)
  | None => mret tt
  end;;
  vaultClientConfig ← call EvDefaultConfig (vaultclient.DefaultConfig lib);
  (* vaultClientConfig.Address = opts.url *)
  let vaultClientConfig := {| vaultclient.Address := url opts |} in
  '(vaultClient, err) ← call (EvNewClient vaultClientConfig)
                           (vaultclient.NewClient lib vaultClientConfig);
  match err with
  | Some err =>
      Fatal (log opts)
        (Go.Sprintf "failed to initialize Vault client, err: %s"
           [Go.argString (Go.Error err)])
  | None => mret tt
  end;;
  provider ← deref (authProvider opts);
  authErr ← provider (log opts) vaultClient;
  match authErr with
  | Some authErr =>
      Fatal (log opts)
        (Go.Sprintf "failed to authenticate Vault client, err: %s"
           [Go.argString (Go.Error authErr)])
  | None => mret tt
  end;;
  mret {| config := config; vaultClient := vaultClient |}.

(** [GetSecret] returns the pair [(secret, err)]. *)
Definition GetSecret (c : Component) (key : string)
  : M (string * option Go.error) :=
  let getOptions :=
    {| vaultclient.KV2_MountPath := SecretMountPath (config c);
       vaultclient.KV2_SecretPath := SecretPath (config c) |} in
  client ← deref (vaultClient c);
  '(secretResp, err) ← call (EvKV2Get client getOptions)
                          (vaultclient.KV2_Get lib client getOptions);
  match err with
  | Some err => mret (emptyStr, Some err)
  | None =>
      secretResp ← deref secretResp;
      secretMap ←
        run (Go.assertMap (Go.index (vaultclient.Data secretResp) "data"));
      secret ← run (Go.assertString (Go.index secretMap key));
      mret (secret, None)
  end.

End Package.
End vault.

(** * Specification vocabulary *)

Import effects vault.

(** The error [Validate] builds for a field name. *)
Definition validationError (field : string) : Go.error :=
  Go.errorString
    ("failed to validate Vault Provider config, " +:+ field +:+ " is empty").

Section Vocabulary.
Context {World Client : Type}.

(** Role logins in a trace. *)
Definition isRoleLogin (e : event Client) : bool :=
  match e with
  | EvAppRoleLogin _ _ => true
  | _ => false
  end.

Definition roleLoginAttempts (t : list (event Client)) : nat :=
  length (List.filter isRoleLogin t).

(** An option that leaves the server URL alone. *)
Definition keepsURL (opt : Option (World := World) (Client := Client))
  : Prop :=
  ∀ o, url (opt o) = url o.

End Vocabulary.

(** ** A scripted library

    A concrete [Library] for running the package on examples.  The world is
    the number of library calls made so far, there is one client handle,
    and the answers of the two logins and of the read are fixed up front. *)

Module example.

Definition lib (iam approle : option Go.error)
    (read : option vaultclient.Secret * option Go.error)
  : vaultclient.Library nat unit :=
  {| vaultclient.DefaultConfig w :=
       ({| vaultclient.Address := "https://127.0.0.1:8200" |}, S w);
     vaultclient.NewClient _ w := ((Some tt, None), S w);
     vaultclient.IAM_Login _ _ w := (iam, S w);
     vaultclient.AppRole_Login _ _ w := (approle, S w);
     vaultclient.KV2_Get _ _ w := (read, S w) |}.

Definition env : gmap string string :=
  {[ "SPACE_NAME" := "TeamSpace"; "SECRET_PATH" := "mysecret-dev";
     "IAM_ROLE_ARN" := "arn:aws:iam::123456789012:role/service";
     "APP_ROLE_ID" := "role-id"; "APP_ROLE_SECRET_ID" := "secret-id" ]}.

Definition config : Config := NewConfig env.

Definition component : Component (Client := unit) :=
  {| vault.config := config; vaultClient := Some tt |}.

(** The document [{"data": {"password": "s3cr3t"}}]. *)
Definition passwordDoc : vaultclient.Secret :=
  {| vaultclient.Data :=
       {[ "data" := Go.anyMap {[ "password" := Go.anyString "s3cr3t" ]} ]} |}.

(** Configurations that lack the space identifier, respectively the
    secret path. *)
Definition noSpace : Config := NewConfig {[ "SECRET_PATH" := "mysecret-dev" ]}.
Definition noPath : Config := NewConfig {[ "SPACE_NAME" := "TeamSpace" ]}.

(** The provider the default options install for [config]. *)
Definition chain (l : vaultclient.Library nat unit)
  : AuthProvider (World := nat) (Client := unit) :=
  match authProvider (createDefaultOptions l config) with
  | Some provider => provider
  | None => λ _ _, mret None
  end.

Definition iamDenied : Go.error :=
  Go.foreignError "*api.ResponseError" "iam: permission denied".

Definition roleDenied : Go.error :=
  Go.foreignError "*api.ResponseError" "approle: invalid secret id".

Definition storeDown : Go.error :=
  Go.foreignError "*net.OpError" "dial tcp: connection refused".

End example.

(** ** Further vocabulary

    Observations on traces and on options used by the properties of the
    whole construction. *)

Section TraceVocabulary.
Context {Client : Type}.

Definition isIAMLogin (e : event Client) : bool :=
  match e with
  | EvIAMLogin _ _ => true
  | _ => false
  end.

Definition iamLoginAttempts (t : list (event Client)) : nat :=
  length (List.filter isIAMLogin t).

Definition isRead (e : event Client) : bool :=
  match e with
  | EvKV2Get _ _ => true
  | _ => false
  end.

(** A line written at fatal level. *)
Definition isFatal (e : event Client) : bool :=
  match e with
  | EvLog _ zap.FatalLevel _ => true
  | _ => false
  end.

(** The logger a log line went to. *)
Definition loggerOf (e : event Client) : option zap.Logger :=
  match e with
  | EvLog l _ _ => Some l
  | _ => None
  end.

Definition loggers (t : list (event Client)) : list zap.Logger :=
  omap loggerOf t.

End TraceVocabulary.

Section OptionVocabulary.
Context {World Client : Type} (lib : vaultclient.Library World Client).

(** An option that leaves the authentication provider alone. *)
Definition keepsAuthProvider
    (opt : Option (World := World) (Client := Client)) : Prop :=
  ∀ o, authProvider (opt o) = authProvider o.

(** The options a caller can build: [options] is not exported, so every
    [Option] value comes from one of the five constructors. *)
Inductive packageOption
  : Option (World := World) (Client := Client) → Prop :=
| isWithLogger (l : zap.Logger) : packageOption (WithLogger l)
| isWithURL (u : string) : packageOption (WithURL u)
| isWithDefaultChainAuthProvider (config : Config) :
    packageOption (WithDefaultChainAuthProvider lib config)
| isWithIAMAuthProvider (lo : vaultclient.IAMLoginOptions) :
    packageOption (WithIAMAuthProvider lib lo)
| isWithAppRoleAuthProvider (lo : vaultclient.AppRoleLoginOptions) :
    packageOption (WithAppRoleAuthProvider lib lo).

(** The providers those constructors install. *)
Definition packageProvider (p : option AuthProvider) : Prop :=
  (∃ config o, p = authProvider (WithDefaultChainAuthProvider lib config o)) ∨
  (∃ lo o, p = authProvider (WithIAMAuthProvider lib lo o)) ∨
  (∃ lo o, p = authProvider (WithAppRoleAuthProvider lib lo o)).

End OptionVocabulary.

(** ** More scripted runs

    A library whose client creation is scripted as well, and documents of
    other shapes. *)

Module scenario.

Definition lib (client : option unit * option Go.error)
    (iam approle : option Go.error)
    (read : option vaultclient.Secret * option Go.error)
  : vaultclient.Library nat unit :=
  {| vaultclient.DefaultConfig w :=
       ({| vaultclient.Address := "https://127.0.0.1:8200" |}, S w);
     vaultclient.NewClient _ w := (client, S w);
     vaultclient.IAM_Login _ _ w := (iam, S w);
     vaultclient.AppRole_Login _ _ w := (approle, S w);
     vaultclient.KV2_Get _ _ w := (read, S w) |}.

Definition badAddress : Go.error :=
  Go.errorString "parse address: missing protocol scheme".

(** The document [{"password": "s3cr3t"}], without the ["data"] level. *)
Definition flatDoc : vaultclient.Secret :=
  {| vaultclient.Data := {[ "password" := Go.anyString "s3cr3t" ]} |}.

(** The document [{"data": {"port": 8200, "password": "s3cr3t"}}]. *)
Definition portDoc : vaultclient.Secret :=
  {| vaultclient.Data :=
       {[ "data" :=
            Go.anyMap {[ "port" := Go.anyNumber "8200";
                         "password" := Go.anyString "s3cr3t" ]} ]} |}.

Definition iamOptions : vaultclient.IAMLoginOptions :=
  {| vaultclient.IAM_Role := "ci-runner";
     vaultclient.IAM_MountPath := "Shared/aws" |}.

Definition roleOptions : vaultclient.AppRoleLoginOptions :=
  {| vaultclient.AppRole_RoleID := "local-role";
     vaultclient.AppRole_SecretID := "local-secret";
     vaultclient.AppRole_MountPath := "Shared/approle" |}.

End scenario.

(** * Properties *)

(** ** Formatting and environment *)

Lemma append_empty_r (s : string) : s +:+ "" = s.
Proof.
  induction s as [|c s IH]; [done |].
  change (String c (s +:+ "") = String c s). by rewrite IH.
Qed.

Lemma Sprintf_secrets (s : string) :
  Go.Sprintf secretsMountPathFormat [Go.argString s] = s +:+ "/secrets".
Proof. reflexivity. Qed.

Lemma Sprintf_aws (s : string) :
  Go.Sprintf awsLoginPathFormat [Go.argString s] = s +:+ "/aws".
Proof. reflexivity. Qed.

Lemma Sprintf_approle (s : string) :
  Go.Sprintf appRoleLoginPathFormat [Go.argString s] = s +:+ "/approle".
Proof. reflexivity. Qed.

Lemma Errorf_validation (field : string) :
  Go.Errorf errFmtConfigValidation [Go.argString field] =
  validationError field.
Proof. reflexivity. Qed.

Lemma Errorf_both (e1 e2 : Go.error) :
  Go.Errorf "%w; %w" [Go.argError e1; Go.argError e2] =
  Go.wrapErrors (Go.Error e1 +:+ "; " +:+ Go.Error e2) [e1; e2].
Proof.
  change (Go.Errorf "%w; %w" [Go.argError e1; Go.argError e2])
    with (Go.wrapErrors (Go.Error e1 +:+ "; " +:+ (Go.Error e2 +:+ ""))
            [e1; e2]).
  by rewrite append_empty_r.
Qed.

Lemma Getenv_insert (env : gmap string string) (k v : string) :
  Go.Getenv (<[k := v]> env) k = v.
Proof. unfold Go.Getenv. by rewrite lookup_insert_eq. Qed.

Lemma Getenv_unset_or_empty (env : gmap string string) (k : string) :
  env !! k = None ∨ env !! k = Some "" → Go.Getenv env k = "".
Proof. unfold Go.Getenv. by intros [-> | ->]. Qed.

Lemma eqb_empty_false (s : string) : s ≠ "" → String.eqb s "" = false.
Proof. intros H. by apply String.eqb_neq. Qed.

(** ** Configuration *)

Section ConfigProperties.
Variables propertySpaceName propertySecretPath : string.

#[local] Abbreviation Validate :=
  (Validate propertySpaceName propertySecretPath).

(** C4.  [Validate] checks the space identifier first and the secret path
    second.  With an empty space identifier the error names the space
    identifier, whatever the secret path is; with a non-empty space
    identifier and an empty secret path it names the secret path; with
    both non-empty the result is nil. *)
Theorem Validate_first_missing_field (c : Config) :
  (SpaceName c = "" →
   Validate c = Some (validationError propertySpaceName)) ∧
  (SpaceName c ≠ "" → SecretPath c = "" →
   Validate c = Some (validationError propertySecretPath)) ∧
  (SpaceName c ≠ "" → SecretPath c ≠ "" → Validate c = None).
Proof.
  unfold vault.Validate, emptyStr.
  rewrite !Errorf_validation.
  split; [| split].
  - intros ->. reflexivity.
  - intros Hspace ->. by rewrite (eqb_empty_false _ Hspace).
  - intros Hspace Hpath.
    by rewrite (eqb_empty_false _ Hspace), (eqb_empty_false _ Hpath).
Qed.

(** C5.  Whatever else the environment holds, with [SPACE_NAME] set to [s]
    the configuration has space identifier [s], mount path [s/secrets],
    AWS login path [s/aws] and role login path [s/approle]; for
    [TeamSpace] these are the three literal paths. *)
Theorem NewConfig_derived_paths (env : gmap string string) (s : string) :
  let c := NewConfig (<[envSpaceName := s]> env) in
  let t := NewConfig (<[envSpaceName := "TeamSpace"]> env) in
  (SpaceName c = s ∧
   SecretMountPath c = s +:+ "/secrets" ∧
   AWSLoginPath c = s +:+ "/aws" ∧
   AppRoleLoginPath c = s +:+ "/approle") ∧
  (SecretMountPath t = "TeamSpace/secrets" ∧
   AWSLoginPath t = "TeamSpace/aws" ∧
   AppRoleLoginPath t = "TeamSpace/approle").
Proof.
  cbn zeta. unfold NewConfig.
  cbn [SpaceName SecretMountPath AWSLoginPath AppRoleLoginPath].
  rewrite !Sprintf_secrets, !Sprintf_aws, !Sprintf_approle, !Getenv_insert.
  repeat split; reflexivity.
Qed.

(** C10.  With [SPACE_NAME] unset or empty, [NewConfig] still returns a
    configuration, whose derived paths are the bare suffixes; it is
    [Validate] that refuses it, naming the space identifier. *)
Theorem NewConfig_empty_space_name (env : gmap string string) :
  env !! envSpaceName = None ∨ env !! envSpaceName = Some "" →
  let c := NewConfig env in
  SpaceName c = "" ∧
  SecretMountPath c = "/secrets" ∧
  AWSLoginPath c = "/aws" ∧
  AppRoleLoginPath c = "/approle" ∧
  Validate c = Some (validationError propertySpaceName).
Proof.
  intros Henv%Getenv_unset_or_empty. cbn zeta.
  unfold vault.Validate, NewConfig.
  cbn [SpaceName SecretPath SecretMountPath AWSLoginPath AppRoleLoginPath].
  rewrite Sprintf_secrets, Sprintf_aws, Sprintf_approle, Henv.
  rewrite Errorf_validation. repeat split; reflexivity.
Qed.

End ConfigProperties.

Example NewConfig_TeamSpace :
  SpaceName example.config = "TeamSpace" ∧
  SecretPath example.config = "mysecret-dev" ∧
  SecretMountPath example.config = "TeamSpace/secrets" ∧
  AWSLoginPath example.config = "TeamSpace/aws" ∧
  AppRoleLoginPath example.config = "TeamSpace/approle".
Proof. repeat split; reflexivity. Qed.

Example Validate_message :
  Go.Error
    <$> Validate "vault.spaceName" "vault.secretPath" example.noSpace =
  Some "failed to validate Vault Provider config, vault.spaceName is empty".
Proof. reflexivity. Qed.

(** ** Running the package *)

Create HintDb exec.
#[local] Hint Unfold mbind mret M_bind M_ret call deref run Info Debug Fatal
  : exec.

#[local] Arguments Go.Sprintf : simpl never.
#[local] Arguments Go.Errorf : simpl never.

(** Unfold the sequencing and evaluate as far as the library's answers are
    known. *)
Ltac exec := autounfold with exec; cbn.

(** Feed the answer [H] of a library call to the run. *)
Ltac answer H := rewrite H; exec.

Section ChainProperties.
Context {World Client : Type} (lib : vaultclient.Library World Client).

(** C3.  When the machine-identity login succeeds the chain returns nil at
    once: the run consists of that login and one log line, the world is
    the one the login left, and no role login was made. *)
Theorem default_chain_short_circuits
    (config : Config) (o : options) (provider : AuthProvider)
    (l : zap.Logger) (c : Client) (w w1 : World) :
  authProvider (WithDefaultChainAuthProvider lib config o) = Some provider →
  vaultclient.IAM_Login lib c (getIAMLoginOptions config) w = (None, w1) →
  provider l (Some c) w =
    {| out := Go.Returned None;
       world := w1;
       trace :=
         [EvIAMLogin c (getIAMLoginOptions config);
          EvLog l zap.InfoLevel "Vault Client authed with AWS IAM method"] |}
  ∧ roleLoginAttempts (trace (provider l (Some c) w)) = 0.
Proof.
  intros [= <-] Hiam. exec. answer Hiam. done.
Qed.

(** C2.  When both logins fail the chain returns one error; its text is the
    two texts joined by a semicolon and it unwraps to exactly the two
    failures, the machine-identity one first. *)
Theorem default_chain_both_fail
    (config : Config) (o : options) (provider : AuthProvider)
    (l : zap.Logger) (c : Client) (w w1 w2 : World) (e1 e2 : Go.error) :
  authProvider (WithDefaultChainAuthProvider lib config o) = Some provider →
  vaultclient.IAM_Login lib c (getIAMLoginOptions config) w
    = (Some e1, w1) →
  vaultclient.AppRole_Login lib c (getAppRoleLoginOptions config) w1
    = (Some e2, w2) →
  ∃ err : Go.error,
    out (provider l (Some c) w) = Go.Returned (Some err) ∧
    Go.Error err = Go.Error e1 +:+ "; " +:+ Go.Error e2 ∧
    Go.Unwrap err = [e1; e2].
Proof.
  intros [= <-] Hiam Hrole. exec. answer Hiam. answer Hrole.
  rewrite Errorf_both. by eexists.
Qed.

End ChainProperties.

Section ComponentProperties.
Variables propertySpaceName propertySecretPath : string.
Context {World Client : Type} (lib : vaultclient.Library World Client).

#[local] Abbreviation Validate :=
  (Validate propertySpaceName propertySecretPath).
#[local] Abbreviation NewComponent :=
  (NewComponent propertySpaceName propertySecretPath lib).
#[local] Abbreviation Option := (Option (World := World) (Client := Client)).

(** The options [NewComponent] ends up with: the defaults, then every
    option of the caller in turn. *)
#[local] Abbreviation applied config options :=
  (foldl
     (λ (opts : vault.options) (option : vault.options → vault.options),
        option opts)
     (createDefaultOptions lib config) options).

Lemma options_keep_url (options : list Option) (o : vault.options) :
  Forall keepsURL options →
  url (foldl (λ opts (option : vault.options → vault.options), option opts)
         o options) = url o.
Proof.
  intros Hkeep. revert o.
  induction Hkeep as [|opt options Hopt _ IH]; intros o; [done |].
  cbn. by rewrite IH, Hopt.
Qed.

Lemma WithLogger_keepsURL (l : zap.Logger) :
  keepsURL (WithLogger l : Option).
Proof. by intros o. Qed.

Lemma WithDefaultChainAuthProvider_keepsURL (config : Config) :
  keepsURL (WithDefaultChainAuthProvider lib config).
Proof. by intros o. Qed.

Lemma WithIAMAuthProvider_keepsURL (lo : vaultclient.IAMLoginOptions) :
  keepsURL (WithIAMAuthProvider lib lo).
Proof. by intros o. Qed.

Lemma WithAppRoleAuthProvider_keepsURL
    (lo : vaultclient.AppRoleLoginOptions) :
  keepsURL (WithAppRoleAuthProvider lib lo).
Proof. by intros o. Qed.

(** Up to the creation of the client, a construction on a valid
    configuration asks the library for its default configuration and then
    for a client at the URL of the final options. *)
Lemma NewComponent_client_address
    (config : Config) (options : list Option) (w : World) :
  Validate config = None →
  ∃ tail,
    trace (NewComponent config options w) =
    EvDefaultConfig ::
    EvNewClient {| vaultclient.Address := url (applied config options) |} ::
    tail.
Proof.
  intros Hvalid. unfold vault.NewComponent. rewrite Hvalid. exec.
  destruct (vaultclient.DefaultConfig lib w) as [cfg0 w0]. cbn.
  destruct (vaultclient.NewClient lib _ w0) as [[vaultClient err] w1]. cbn.
  destruct err as [err|]; cbn; [by eexists |].
  destruct (authProvider _) as [provider|]; cbn; [| by eexists].
  destruct (provider _ _ _) as [[[authErr|]|p|code] w2 t2]; cbn;
    by eexists.
Qed.

(** C9.  On a valid configuration, when no option of the caller touches
    the URL the client is created at the default URL; when the caller
    passes [WithURL u], and no later option touches the URL again, the
    client is created at [u]. *)
Theorem NewComponent_server_url
    (config : Config) (options : list Option) (w : World) :
  Validate config = None →
  (Forall keepsURL options →
   ∃ tail,
     trace (NewComponent config options w) =
     EvDefaultConfig ::
     EvNewClient {| vaultclient.Address := "https://your.vault.server.url/" |}
     :: tail) ∧
  (∀ (u : string) (before after : list Option),
     options = before ++ WithURL u :: after →
     Forall keepsURL after →
     ∃ tail,
       trace (NewComponent config options w) =
       EvDefaultConfig :: EvNewClient {| vaultclient.Address := u |} :: tail).
Proof.
  intros Hvalid. split.
  - intros Hkeep.
    destruct (NewComponent_client_address config options w Hvalid)
      as [tail Htail].
    exists tail. by rewrite Htail, options_keep_url.
  - intros u before after -> Hkeep.
    destruct (NewComponent_client_address config
                (before ++ WithURL u :: after) w Hvalid) as [tail Htail].
    exists tail. rewrite Htail, foldl_app. cbn.
    by rewrite options_keep_url.
Qed.

(** C7.  On a valid configuration, with a client created and the default
    chain in place: when the machine-identity login fails and the role
    login succeeds, the chain returns nil and [NewComponent] returns the
    component.  The run shows both logins and no fatal line. *)
Theorem default_chain_fallback_succeeds
    (config : Config) (options : list Option) (c : Client)
    (w w1 w2 w3 : World) (e1 : Go.error) :
  let opts := applied config options in
  let address := {| vaultclient.Address := url opts |} in
  authProvider opts = authProvider (createDefaultOptions lib config) →
  Validate config = None →
  vaultclient.NewClient lib address (vaultclient.DefaultConfig lib w).2
    = ((Some c, None), w1) →
  vaultclient.IAM_Login lib c (getIAMLoginOptions config) w1
    = (Some e1, w2) →
  vaultclient.AppRole_Login lib c (getAppRoleLoginOptions config) w2
    = (None, w3) →
  (∃ provider,
     authProvider opts = Some provider ∧
     out (provider (log opts) (Some c) w1) = Go.Returned None) ∧
  NewComponent config options w =
    {| out := Go.Returned {| vault.config := config; vaultClient := Some c |};
       world := w3;
       trace :=
         [EvDefaultConfig;
          EvNewClient address;
          EvIAMLogin c (getIAMLoginOptions config);
          EvLog (log opts) zap.DebugLevel
            (Go.Sprintf "Vault Client IAM auth failed with err: %s"
               [Go.argString (Go.Error e1)]);
          EvAppRoleLogin c (getAppRoleLoginOptions config);
          EvLog (log opts) zap.InfoLevel
            "Vault Client authed with AppRole method"] |}.
Proof.
  intros opts address Hauth Hvalid Hclient Hiam Hrole.
  destruct (vaultclient.DefaultConfig lib w) as [cfg0 w0] eqn:Hdefault.
  cbn in Hclient. split.
  - eexists. split; [exact Hauth |].
    exec. answer Hiam. answer Hrole. done.
  - unfold vault.NewComponent. cbv zeta. rewrite Hvalid. fold opts.
    rewrite Hauth. fold address. exec.
    answer Hdefault. answer Hclient. answer Hiam. answer Hrole. done.
Qed.

End ComponentProperties.

(** ** Reading a secret *)

Section SecretProperties.
Context {World Client : Type} (lib : vaultclient.Library World Client).

(** The read [GetSecret] issues for a component. *)
#[local] Abbreviation readOf comp :=
  {| vaultclient.KV2_MountPath := SecretMountPath (config comp);
     vaultclient.KV2_SecretPath := SecretPath (config comp) |}.

(** C6.  When the read succeeds with a document whose ["data"] entry is a
    map that holds a string at [key], [GetSecret] returns that string and a
    nil error, after exactly one read at the configured paths. *)
Theorem GetSecret_returns_value
    (comp : Component) (key : string) (c : Client) (w w1 : World)
    (doc : vaultclient.Secret) (payload : gmap string Go.any)
    (value : string) :
  vaultClient comp = Some c →
  vaultclient.KV2_Get lib c (readOf comp) w = ((Some doc, None), w1) →
  vaultclient.Data doc !! "data" = Some (Go.anyMap payload) →
  payload !! key = Some (Go.anyString value) →
  GetSecret lib comp key w =
    {| out := Go.Returned (value, None);
       world := w1;
       trace := [EvKV2Get c (readOf comp)] |}.
Proof.
  intros Hclient Hread Hdata Hkey.
  unfold GetSecret, Go.index. rewrite Hclient. exec. answer Hread.
  rewrite Hdata. cbn. rewrite Hkey. reflexivity.
Qed.

(** Whenever [GetSecret] returns a non-nil error, the secret it returns
    with it is the empty string. *)
Lemma GetSecret_error_value
    (comp : Component) (key : string) (w : World)
    (secret : string) (err : Go.error) :
  out (GetSecret lib comp key w) = Go.Returned (secret, Some err) →
  secret = "".
Proof.
  unfold GetSecret. destruct (vaultClient comp) as [c|]; exec; [| done].
  destruct (vaultclient.KV2_Get lib c _ w) as [[resp [readErr|]] w1]; cbn.
  { by intros [= <- _]. }
  destruct resp as [doc|]; cbn; [| done].
  destruct (Go.assertMap _) as [secretMap|p|code]; cbn; [| done | done].
  destruct (Go.assertString _) as [value|p|code]; cbn; done.
Qed.

(** C8.  When the read fails, [GetSecret] returns the empty string together
    with the very error of the read, whatever came along as the document;
    and no return of [GetSecret] pairs a non-nil error with anything but
    the empty string. *)
Theorem GetSecret_read_error
    (comp : Component) (key : string) (c : Client) (w w1 : World)
    (resp : option vaultclient.Secret) (err : Go.error) :
  vaultClient comp = Some c →
  vaultclient.KV2_Get lib c (readOf comp) w = ((resp, Some err), w1) →
  GetSecret lib comp key w =
    {| out := Go.Returned ("", Some err);
       world := w1;
       trace := [EvKV2Get c (readOf comp)] |}
  ∧ (∀ (secret : string) (e : Go.error),
       out (GetSecret lib comp key w) = Go.Returned (secret, Some e) →
       secret = "").
Proof.
  intros Hclient Hread. split.
  - unfold GetSecret. rewrite Hclient. exec. answer Hread. reflexivity.
  - apply GetSecret_error_value.
Qed.

(** When the read succeeds and the payload has no entry at [key], the
    index yields the nil interface and the assertion to [string] panics:
    [GetSecret] does not return. *)
Lemma GetSecret_absent_key
    (comp : Component) (key : string) (c : Client) (w w1 : World)
    (doc : vaultclient.Secret) (payload : gmap string Go.any) :
  vaultClient comp = Some c →
  vaultclient.KV2_Get lib c (readOf comp) w = ((Some doc, None), w1) →
  vaultclient.Data doc !! "data" = Some (Go.anyMap payload) →
  payload !! key = None →
  out (GetSecret lib comp key w) =
    Go.Panicked (Go.interfaceConversion None "string").
Proof.
  intros Hclient Hread Hdata Hkey.
  unfold GetSecret, Go.index. rewrite Hclient. exec. answer Hread.
  rewrite Hdata. cbn. rewrite Hkey. reflexivity.
Qed.

End SecretProperties.

(** C1.  [GetSecret("missing")] against the document
    [{"data": {"password": "s3cr3t"}}] does not return an error: the
    unchecked assertion [secretMap[key].(string)] meets the nil interface
    and the call panics. *)
Theorem GetSecret_missing_key_panics :
  out (GetSecret
         (example.lib None None (Some example.passwordDoc, None))
         example.component "missing" 0) =
  Go.Panicked (Go.interfaceConversion None "string").
Proof.
  by apply GetSecret_absent_key
    with (c := tt) (w1 := 1) (doc := example.passwordDoc)
         (payload := {[ "password" := Go.anyString "s3cr3t" ]}).
Qed.

(** ** Concrete runs

    Each statement above that carries assumptions is exercised once on the
    scripted library. *)

Lemma Validate_first_missing_field_witness :
  Validate "spaceName" "secretPath" example.noSpace
    = Some (validationError "spaceName") ∧
  Validate "spaceName" "secretPath" example.noPath
    = Some (validationError "secretPath") ∧
  Validate "spaceName" "secretPath" example.config = None.
Proof.
  split; [| split].
  - apply (Validate_first_missing_field "spaceName" "secretPath"
             example.noSpace).
    reflexivity.
  - apply (Validate_first_missing_field "spaceName" "secretPath"
             example.noPath); [discriminate | reflexivity].
  - apply (Validate_first_missing_field "spaceName" "secretPath"
             example.config); discriminate.
Defined.

Lemma NewConfig_empty_space_name_witness :
  (SecretMountPath example.noSpace = "/secrets" ∧
   AWSLoginPath example.noSpace = "/aws" ∧
   AppRoleLoginPath example.noSpace = "/approle" ∧
   Validate "spaceName" "secretPath" example.noSpace
     = Some (validationError "spaceName")) ∧
  Validate "spaceName" "secretPath" (NewConfig {[ "SPACE_NAME" := "" ]})
    = Some (validationError "spaceName").
Proof.
  split.
  - apply (NewConfig_empty_space_name "spaceName" "secretPath"
             {[ "SECRET_PATH" := "mysecret-dev" ]}).
    left. reflexivity.
  - apply (NewConfig_empty_space_name "spaceName" "secretPath"
             {[ "SPACE_NAME" := "" ]}).
    right. reflexivity.
Defined.

Lemma default_chain_short_circuits_witness :
  example.chain (example.lib None (Some example.roleDenied) (None, None))
    zap.L (Some tt) 0 =
    {| out := Go.Returned None;
       world := 1;
       trace :=
         [EvIAMLogin tt (getIAMLoginOptions example.config);
          EvLog zap.L zap.InfoLevel
            "Vault Client authed with AWS IAM method"] |}.
Proof.
  apply (default_chain_short_circuits
           (example.lib None (Some example.roleDenied) (None, None))
           example.config
           {| log := zap.L; url := defaultURL; authProvider := None |}
           (example.chain
              (example.lib None (Some example.roleDenied) (None, None)))
           zap.L tt 0 1);
    reflexivity.
Defined.

Lemma default_chain_both_fail_witness :
  ∃ err : Go.error,
    out (example.chain
           (example.lib (Some example.iamDenied) (Some example.roleDenied)
              (None, None))
           zap.L (Some tt) 0) = Go.Returned (Some err) ∧
    Go.Error err = "iam: permission denied; approle: invalid secret id" ∧
    Go.Unwrap err = [example.iamDenied; example.roleDenied].
Proof.
  apply (default_chain_both_fail
           (example.lib (Some example.iamDenied) (Some example.roleDenied)
              (None, None))
           example.config
           {| log := zap.L; url := defaultURL; authProvider := None |}
           (example.chain
              (example.lib (Some example.iamDenied)
                 (Some example.roleDenied) (None, None)))
           zap.L tt 0 1 2 example.iamDenied example.roleDenied);
    reflexivity.
Defined.

Lemma default_chain_fallback_succeeds_witness :
  out (NewComponent "spaceName" "secretPath"
         (example.lib (Some example.iamDenied) None (None, None))
         example.config [WithLogger (zap.Named "test")] 0) =
  Go.Returned {| config := example.config; vaultClient := Some tt |}.
Proof.
  apply (f_equal out
           (proj2
              (default_chain_fallback_succeeds "spaceName" "secretPath"
                 (example.lib (Some example.iamDenied) None (None, None))
                 example.config [WithLogger (zap.Named "test")] tt
                 0 2 3 4 example.iamDenied
                 eq_refl eq_refl eq_refl eq_refl eq_refl))).
Defined.

Lemma NewComponent_server_url_witness :
  (∃ tail,
     trace (NewComponent "spaceName" "secretPath"
              (example.lib None None (None, None))
              example.config [WithLogger (zap.Named "test")] 0) =
     EvDefaultConfig ::
     EvNewClient {| vaultclient.Address := "https://your.vault.server.url/" |}
     :: tail) ∧
  (∃ tail,
     trace (NewComponent "spaceName" "secretPath"
              (example.lib None None (None, None))
              example.config
              [WithLogger (zap.Named "test");
               WithURL "https://vault.test:8200/";
               WithLogger zap.L] 0) =
     EvDefaultConfig ::
     EvNewClient {| vaultclient.Address := "https://vault.test:8200/" |}
     :: tail).
Proof.
  split.
  - apply (NewComponent_server_url "spaceName" "secretPath"
             (example.lib None None (None, None))
             example.config [WithLogger (zap.Named "test")] 0);
      [reflexivity |].
    repeat constructor.
  - apply (proj2
             (NewComponent_server_url "spaceName" "secretPath"
                (example.lib None None (None, None))
                example.config
                [WithLogger (zap.Named "test");
                 WithURL "https://vault.test:8200/";
                 WithLogger zap.L] 0 eq_refl)
             "https://vault.test:8200/"
             [WithLogger (zap.Named "test")] [WithLogger zap.L]);
      [reflexivity |].
    repeat constructor.
Defined.

Lemma GetSecret_returns_value_witness :
  GetSecret (example.lib None None (Some example.passwordDoc, None))
    example.component "password" 0 =
    {| out := Go.Returned ("s3cr3t", None);
       world := 1;
       trace :=
         [EvKV2Get tt
            {| vaultclient.KV2_MountPath := "TeamSpace/secrets";
               vaultclient.KV2_SecretPath := "mysecret-dev" |}] |}.
Proof.
  apply (GetSecret_returns_value
           (example.lib None None (Some example.passwordDoc, None))
           example.component "password" tt 0 1 example.passwordDoc
           {[ "password" := Go.anyString "s3cr3t" ]} "s3cr3t");
    reflexivity.
Defined.

Lemma GetSecret_read_error_witness :
  GetSecret (example.lib None None (None, Some example.storeDown))
    example.component "password" 0 =
    {| out := Go.Returned ("", Some example.storeDown);
       world := 1;
       trace :=
         [EvKV2Get tt
            {| vaultclient.KV2_MountPath := "TeamSpace/secrets";
               vaultclient.KV2_SecretPath := "mysecret-dev" |}] |}.
Proof.
  apply (GetSecret_read_error
           (example.lib None None (None, Some example.storeDown))
           example.component "password" tt 0 1 None example.storeDown);
    reflexivity.
Defined.

(** * Further properties *)

(** ** Messages *)

Lemma Sprintf_client_failure (s : string) :
  Go.Sprintf "failed to initialize Vault client, err: %s" [Go.argString s] =
  "failed to initialize Vault client, err: " +:+ s.
Proof.
  change (Go.Sprintf "failed to initialize Vault client, err: %s"
            [Go.argString s])
    with ("failed to initialize Vault client, err: " +:+ (s +:+ "")).
  by rewrite append_empty_r.
Qed.

Lemma Sprintf_auth_failure (s : string) :
  Go.Sprintf "failed to authenticate Vault client, err: %s" [Go.argString s] =
  "failed to authenticate Vault client, err: " +:+ s.
Proof.
  change (Go.Sprintf "failed to authenticate Vault client, err: %s"
            [Go.argString s])
    with ("failed to authenticate Vault client, err: " +:+ (s +:+ "")).
  by rewrite append_empty_r.
Qed.

Lemma Sprintf_iam_failure (s : string) :
  Go.Sprintf "Vault Client IAM auth failed with err: %s" [Go.argString s] =
  "Vault Client IAM auth failed with err: " +:+ s.
Proof.
  change (Go.Sprintf "Vault Client IAM auth failed with err: %s"
            [Go.argString s])
    with ("Vault Client IAM auth failed with err: " +:+ (s +:+ "")).
  by rewrite append_empty_r.
Qed.

Lemma Sprintf_role_failure (s : string) :
  Go.Sprintf "Vault Client AppRole auth failed with err: %s"
    [Go.argString s] =
  "Vault Client AppRole auth failed with err: " +:+ s.
Proof.
  change (Go.Sprintf "Vault Client AppRole auth failed with err: %s"
            [Go.argString s])
    with ("Vault Client AppRole auth failed with err: " +:+ (s +:+ "")).
  by rewrite append_empty_r.
Qed.

Lemma length_append (s t : string) :
  String.length (s +:+ t) = String.length s + String.length t.
Proof.
  induction s as [|c s IH]; [done |].
  change (S (String.length (s +:+ t)) = S (String.length s + String.length t)).
  by rewrite IH.
Qed.

(** A common suffix can be cancelled. *)
Lemma append_cancel_r (s s' t : string) : s +:+ t = s' +:+ t → s = s'.
Proof.
  revert s'. induction s as [|c s IH]; intros [|c' s'] Heq.
  - done.
  - apply (f_equal String.length) in Heq.
    change ("" +:+ t) with t in Heq.
    change (String c' s' +:+ t) with (String c' (s' +:+ t)) in Heq.
    cbn [String.length] in Heq. rewrite length_append in Heq. lia.
  - apply (f_equal String.length) in Heq.
    change ("" +:+ t) with t in Heq.
    change (String c s +:+ t) with (String c (s +:+ t)) in Heq.
    cbn [String.length] in Heq. rewrite length_append in Heq. lia.
  - change (String c (s +:+ t) = String c' (s' +:+ t)) in Heq.
    injection Heq as -> Heq. by rewrite (IH s' Heq).
Qed.

(** ** Configuration, continued *)

Section MoreConfigProperties.
Variables propertySpaceName propertySecretPath : string.

#[local] Abbreviation Validate :=
  (Validate propertySpaceName propertySecretPath).

(** X1.  A configuration read from the environment passes [Validate]
    exactly when [SPACE_NAME] and [SECRET_PATH] are both set to non-empty
    values.  The three authentication variables play no part: they may be
    unset. *)
Theorem Validate_NewConfig_iff (env : gmap string string) :
  Validate (NewConfig env) = None ↔
  Go.Getenv env "SPACE_NAME" ≠ "" ∧ Go.Getenv env "SECRET_PATH" ≠ "".
Proof.
  unfold vault.Validate, NewConfig, emptyStr, envSpaceName, envSecretPath.
  cbn [SpaceName SecretPath].
  destruct (String.eqb_spec (Go.Getenv env "SPACE_NAME") "") as [-> | Hs].
  { split; [done | by intros [? _]]. }
  destruct (String.eqb_spec (Go.Getenv env "SECRET_PATH") "") as [-> | Hp].
  { split; [done | by intros [_ ?]]. }
  done.
Qed.

(** X2.  What the default chain sends to the library, in terms of the
    environment: the machine-identity login uses role
    [IAM_ROLE_ARN] at [SPACE_NAME/aws], the role login uses
    [APP_ROLE_ID] and [APP_ROLE_SECRET_ID] at [SPACE_NAME/approle]. *)
Theorem login_options_from_environment (env : gmap string string) :
  getIAMLoginOptions (NewConfig env) =
    {| vaultclient.IAM_Role := Go.Getenv env "IAM_ROLE_ARN";
       vaultclient.IAM_MountPath := Go.Getenv env "SPACE_NAME" +:+ "/aws" |} ∧
  getAppRoleLoginOptions (NewConfig env) =
    {| vaultclient.AppRole_RoleID := Go.Getenv env "APP_ROLE_ID";
       vaultclient.AppRole_SecretID := Go.Getenv env "APP_ROLE_SECRET_ID";
       vaultclient.AppRole_MountPath :=
         Go.Getenv env "SPACE_NAME" +:+ "/approle" |}.
Proof.
  unfold getIAMLoginOptions, getAppRoleLoginOptions, NewConfig.
  cbn [AWSIAMRoleArn AWSLoginPath AppRoleID AppRoleSecretID AppRoleLoginPath].
  by rewrite Sprintf_aws, Sprintf_approle.
Qed.

(** X3.  Two environments whose configurations share the mount path, or
    the AWS login path, or the role login path, have the same space
    identifier: distinct spaces never share a path. *)
Theorem NewConfig_paths_determine_space (env1 env2 : gmap string string) :
  SecretMountPath (NewConfig env1) = SecretMountPath (NewConfig env2) ∨
  AWSLoginPath (NewConfig env1) = AWSLoginPath (NewConfig env2) ∨
  AppRoleLoginPath (NewConfig env1) = AppRoleLoginPath (NewConfig env2) →
  SpaceName (NewConfig env1) = SpaceName (NewConfig env2).
Proof.
  unfold NewConfig.
  cbn [SpaceName SecretMountPath AWSLoginPath AppRoleLoginPath].
  rewrite !Sprintf_secrets, !Sprintf_aws, !Sprintf_approle.
  intros [H | [H | H]]; exact (append_cancel_r _ _ _ H).
Qed.

End MoreConfigProperties.

(** ** Construction, continued *)

Section MoreComponentProperties.
Variables propertySpaceName propertySecretPath : string.
Context {World Client : Type} (lib : vaultclient.Library World Client).

#[local] Abbreviation Validate :=
  (Validate propertySpaceName propertySecretPath).
#[local] Abbreviation NewComponent :=
  (NewComponent propertySpaceName propertySecretPath lib).
#[local] Abbreviation Option := (Option (World := World) (Client := Client)).
#[local] Abbreviation applied config options :=
  (foldl
     (λ (opts : vault.options) (option : vault.options → vault.options),
        option opts)
     (createDefaultOptions lib config) options).
#[local] Abbreviation addressOf config options :=
  {| vaultclient.Address := url (applied config options) |}.

(** X4.  On a configuration that [Validate] refuses, [NewComponent] writes
    the validation error at fatal level to the logger of the final options
    and the process exits with code 1.  Nothing else happened: no call
    into the library was made and the world is untouched. *)
Theorem NewComponent_invalid_config_exits
    (config : Config) (options : list Option) (w : World)
    (validateErr : Go.error) :
  Validate config = Some validateErr →
  NewComponent config options w =
    {| out := Go.Exited 1;
       world := w;
       trace :=
         [EvLog (log (applied config options)) zap.FatalLevel
            (Go.Error validateErr)] |}.
Proof.
  intros Hvalid. unfold vault.NewComponent. rewrite Hvalid. by exec.
Qed.

(** X5.  When the library fails to create the client, [NewComponent]
    writes the error at fatal level and the process exits with code 1
    before any login is attempted. *)
Theorem NewComponent_client_error_exits
    (config : Config) (options : list Option) (w w0 w1 : World)
    (cfg0 : vaultclient.Config) (client : option Client) (err : Go.error) :
  Validate config = None →
  vaultclient.DefaultConfig lib w = (cfg0, w0) →
  vaultclient.NewClient lib (addressOf config options) w0
    = ((client, Some err), w1) →
  NewComponent config options w =
    {| out := Go.Exited 1;
       world := w1;
       trace :=
         [EvDefaultConfig;
          EvNewClient (addressOf config options);
          EvLog (log (applied config options)) zap.FatalLevel
            ("failed to initialize Vault client, err: " +:+ Go.Error err)] |}.
Proof.
  intros Hvalid Hdefault Hclient.
  unfold vault.NewComponent. rewrite Hvalid. exec.
  answer Hdefault. answer Hclient. by rewrite Sprintf_client_failure.
Qed.

(** X6.  With the default chain in place, when both logins fail the
    process exits with code 1.  The run shows, in this order: the
    machine-identity login, its failure at debug level, the role login,
    its failure at debug level, and one fatal line whose text holds both
    error texts. *)
Theorem NewComponent_auth_failure_exits
    (config : Config) (options : list Option) (c : Client)
    (w w0 w1 w2 w3 : World) (cfg0 : vaultclient.Config)
    (e1 e2 : Go.error) :
  authProvider (applied config options)
    = authProvider (createDefaultOptions lib config) →
  Validate config = None →
  vaultclient.DefaultConfig lib w = (cfg0, w0) →
  vaultclient.NewClient lib (addressOf config options) w0
    = ((Some c, None), w1) →
  vaultclient.IAM_Login lib c (getIAMLoginOptions config) w1
    = (Some e1, w2) →
  vaultclient.AppRole_Login lib c (getAppRoleLoginOptions config) w2
    = (Some e2, w3) →
  NewComponent config options w =
    {| out := Go.Exited 1;
       world := w3;
       trace :=
         [EvDefaultConfig;
          EvNewClient (addressOf config options);
          EvIAMLogin c (getIAMLoginOptions config);
          EvLog (log (applied config options)) zap.DebugLevel
            ("Vault Client IAM auth failed with err: " +:+ Go.Error e1);
          EvAppRoleLogin c (getAppRoleLoginOptions config);
          EvLog (log (applied config options)) zap.DebugLevel
            ("Vault Client AppRole auth failed with err: " +:+ Go.Error e2);
          EvLog (log (applied config options)) zap.FatalLevel
            ("failed to authenticate Vault client, err: " +:+
             Go.Error e1 +:+ "; " +:+ Go.Error e2)] |}.
Proof.
  intros Hauth Hvalid Hdefault Hclient Hiam Hrole.
  unfold vault.NewComponent. cbv zeta. rewrite Hvalid, Hauth. exec.
  answer Hdefault. answer Hclient. answer Hiam. answer Hrole.
  rewrite Errorf_both. cbn [Go.Error].
  by rewrite Sprintf_iam_failure, Sprintf_role_failure, Sprintf_auth_failure.
Qed.

(** X7.  Whatever the options are, a component that [NewComponent] returns
    carries the configuration it was given, that configuration passed
    [Validate], the library created its client without an error, and the
    provider of the final options ran on that client and returned nil. *)
Theorem NewComponent_returned_component
    (config : Config) (options : list Option) (w : World)
    (comp : Component) :
  out (NewComponent config options w) = Go.Returned comp →
  let created :=
    vaultclient.NewClient lib (addressOf config options)
      (vaultclient.DefaultConfig lib w).2 in
  vault.config comp = config ∧
  Validate config = None ∧
  created.1 = (vaultClient comp, None) ∧
  ∃ provider,
    authProvider (applied config options) = Some provider ∧
    out (provider (log (applied config options)) (vaultClient comp)
           created.2) = Go.Returned None.
Proof.
  unfold vault.NewComponent. cbv zeta.
  destruct (Validate config) as [validateErr|]; exec; [done |].
  destruct (vaultclient.DefaultConfig lib w) as [cfg0 w0]. cbn.
  destruct (vaultclient.NewClient lib _ w0) as [[client [err|]] w1]; cbn;
    [done |].
  destruct (authProvider _) as [provider|]; cbn; [| done].
  destruct (provider _ client w1) as [[[authErr|]|p|code] w2 t2] eqn:Hrun;
    cbn; try done.
  intros [= <-]. cbn. repeat split. exists provider. by rewrite Hrun.
Qed.

End MoreComponentProperties.

(** ** Construction from the package's own options *)

(** Ask the library for its next answer, whatever it is. *)
Ltac ask :=
  match goal with
  | |- context [vaultclient.DefaultConfig ?l ?w] =>
      destruct (vaultclient.DefaultConfig l w) as [? ?]
  | |- context [vaultclient.NewClient ?l ?a ?w] =>
      destruct (vaultclient.NewClient l a w) as [[[?|] [?|]] ?]
  | |- context [vaultclient.IAM_Login ?l ?c ?o ?w] =>
      destruct (vaultclient.IAM_Login l c o w) as [[?|] ?]
  | |- context [vaultclient.AppRole_Login ?l ?c ?o ?w] =>
      destruct (vaultclient.AppRole_Login l c o w) as [[?|] ?]
  end; exec.

Section PackageOptionProperties.
Variables propertySpaceName propertySecretPath : string.
Context {World Client : Type} (lib : vaultclient.Library World Client).

#[local] Abbreviation Validate :=
  (Validate propertySpaceName propertySecretPath).
#[local] Abbreviation NewComponent :=
  (NewComponent propertySpaceName propertySecretPath lib).
#[local] Abbreviation Option := (Option (World := World) (Client := Client)).
#[local] Abbreviation applied config options :=
  (foldl
     (λ (opts : vault.options) (option : vault.options → vault.options),
        option opts)
     (createDefaultOptions lib config) options).
#[local] Abbreviation addressOf config options :=
  {| vaultclient.Address := url (applied config options) |}.

Lemma options_keep_provider (options : list Option) (o : vault.options) :
  Forall keepsAuthProvider options →
  authProvider
    (foldl (λ opts (option : vault.options → vault.options), option opts)
       o options) = authProvider o.
Proof.
  intros Hkeep. revert o.
  induction Hkeep as [|opt options Hopt _ IH]; intros o; [done |].
  cbn. by rewrite IH, Hopt.
Qed.

Lemma package_options_provider (options : list Option) (o : vault.options) :
  Forall (packageOption lib) options →
  packageProvider lib (authProvider o) →
  packageProvider lib
    (authProvider
       (foldl (λ opts (option : vault.options → vault.options), option opts)
          o options)).
Proof.
  intros Hpkg. revert o.
  induction Hpkg as [|opt options Hopt _ IH]; intros o Ho; [done |].
  cbn. apply IH.
  destruct Hopt as [l | u | cfg | lo | lo]; [done | done | | |].
  - left. by exists cfg, o.
  - right. left. by exists lo, o.
  - right. right. by exists lo, o.
Qed.

Lemma applied_provider (config : Config) (options : list Option) :
  Forall (packageOption lib) options →
  packageProvider lib (authProvider (applied config options)).
Proof.
  intros Hpkg. apply package_options_provider; [done |].
  left. by exists config, {| log := zap.L; url := defaultURL;
                            authProvider := None |}.
Qed.


(** X9.  In a construction from the package's own options every line that
    is logged goes to the logger of the final options.  This includes the
    lines of the default chain, which was installed before the caller's
    [WithLogger] ran. *)
Theorem NewComponent_loggers
    (config : Config) (options : list Option) (w : World) :
  Forall (packageOption lib) options →
  Forall (λ l, l = log (applied config options))
    (loggers (trace (NewComponent config options w))).
Proof.
  intros Hpkg%(applied_provider config).
  unfold vault.NewComponent. cbv zeta.
  destruct (Validate config) as [validateErr|]; exec;
    [by repeat constructor |].
  destruct Hpkg as [(cfg & o & ->) | [(lo & o & ->) | (lo & o & ->)]];
    cbn; repeat ask; by repeat constructor.
Qed.

(** X10.  When the last option that sets the provider is
    [WithIAMAuthProvider lo], construction makes exactly one login, the
    machine-identity login with [lo] as given (not the values of the
    configuration), and never falls back to the role login.  A nil reply
    gives the component; an error ends the process with that error's text
    in the fatal line. *)
Theorem NewComponent_IAM_only
    (config : Config) (options before after : list Option)
    (lo : vaultclient.IAMLoginOptions) (c : Client)
    (w w0 w1 w2 : World) (cfg0 : vaultclient.Config)
    (reply : option Go.error) :
  options = before ++ WithIAMAuthProvider lib lo :: after →
  Forall keepsAuthProvider after →
  Validate config = None →
  vaultclient.DefaultConfig lib w = (cfg0, w0) →
  vaultclient.NewClient lib (addressOf config options) w0
    = ((Some c, None), w1) →
  vaultclient.IAM_Login lib c lo w1 = (reply, w2) →
  NewComponent config options w =
    match reply with
    | None =>
        {| out :=
             Go.Returned {| vault.config := config; vaultClient := Some c |};
           world := w2;
           trace :=
             [EvDefaultConfig; EvNewClient (addressOf config options);
              EvIAMLogin c lo] |}
    | Some authErr =>
        {| out := Go.Exited 1;
           world := w2;
           trace :=
             [EvDefaultConfig; EvNewClient (addressOf config options);
              EvIAMLogin c lo;
              EvLog (log (applied config options)) zap.FatalLevel
                ("failed to authenticate Vault client, err: " +:+
                 Go.Error authErr)] |}
    end.
Proof.
  intros Hoptions Hkeep Hvalid Hdefault Hclient Hiam.
  assert (authProvider (applied config options)
          = authProvider
              (WithIAMAuthProvider lib lo (applied config before)))
    as Hauth.
  { rewrite Hoptions, foldl_app. cbn [foldl].
    by rewrite options_keep_provider. }
  unfold vault.NewComponent. cbv zeta. rewrite Hvalid, Hauth. exec.
  answer Hdefault. answer Hclient. answer Hiam.
  destruct reply as [authErr|]; exec; [| done].
  by rewrite Sprintf_auth_failure.
Qed.

(** X11.  Likewise for [WithAppRoleAuthProvider lo]: exactly one login,
    the role login with [lo] as given, and no machine-identity login at
    all. *)
Theorem NewComponent_AppRole_only
    (config : Config) (options before after : list Option)
    (lo : vaultclient.AppRoleLoginOptions) (c : Client)
    (w w0 w1 w2 : World) (cfg0 : vaultclient.Config)
    (reply : option Go.error) :
  options = before ++ WithAppRoleAuthProvider lib lo :: after →
  Forall keepsAuthProvider after →
  Validate config = None →
  vaultclient.DefaultConfig lib w = (cfg0, w0) →
  vaultclient.NewClient lib (addressOf config options) w0
    = ((Some c, None), w1) →
  vaultclient.AppRole_Login lib c lo w1 = (reply, w2) →
  NewComponent config options w =
    match reply with
    | None =>
        {| out :=
             Go.Returned {| vault.config := config; vaultClient := Some c |};
           world := w2;
           trace :=
             [EvDefaultConfig; EvNewClient (addressOf config options);
              EvAppRoleLogin c lo] |}
    | Some authErr =>
        {| out := Go.Exited 1;
           world := w2;
           trace :=
             [EvDefaultConfig; EvNewClient (addressOf config options);
              EvAppRoleLogin c lo;
              EvLog (log (applied config options)) zap.FatalLevel
                ("failed to authenticate Vault client, err: " +:+
                 Go.Error authErr)] |}
    end.
Proof.
  intros Hoptions Hkeep Hvalid Hdefault Hclient Hrole.
  assert (authProvider (applied config options)
          = authProvider
              (WithAppRoleAuthProvider lib lo (applied config before)))
    as Hauth.
  { rewrite Hoptions, foldl_app. cbn [foldl].
    by rewrite options_keep_provider. }
  unfold vault.NewComponent. cbv zeta. rewrite Hvalid, Hauth. exec.
  answer Hdefault. answer Hclient. answer Hrole.
  destruct reply as [authErr|]; exec; [| done].
  by rewrite Sprintf_auth_failure.
Qed.


End PackageOptionProperties.

(** ** Reading a secret, continued *)

Section MoreSecretProperties.
Context {World Client : Type} (lib : vaultclient.Library World Client).

#[local] Abbreviation readOf comp :=
  {| vaultclient.KV2_MountPath := SecretMountPath (config comp);
     vaultclient.KV2_SecretPath := SecretPath (config comp) |}.

(** X13.  However it ends, a call of [GetSecret] on a component with a
    client makes exactly one read, at the mount path and secret path of
    the configuration, and leaves the world as that read left it.  The key
    is not part of the read. *)
Theorem GetSecret_one_read
    (comp : Component) (key : string) (c : Client) (w : World) :
  vaultClient comp = Some c →
  trace (GetSecret lib comp key w) = [EvKV2Get c (readOf comp)] ∧
  world (GetSecret lib comp key w) =
    (vaultclient.KV2_Get lib c (readOf comp) w).2.
Proof.
  intros Hclient. unfold GetSecret. rewrite Hclient. exec.
  destruct (vaultclient.KV2_Get lib c _ w) as [[resp [err|]] w1]; cbn;
    [done |].
  destruct resp as [doc|]; cbn; [| done].
  destruct (Go.assertMap _) as [secretMap|p|code]; cbn; [| done | done].
  destruct (Go.assertString _) as [value|p|code]; cbn; done.
Qed.

(** X14.  When the read answers with neither a document nor an error,
    [GetSecret] dereferences the nil document and panics. *)
Theorem GetSecret_nil_document
    (comp : Component) (key : string) (c : Client) (w w1 : World) :
  vaultClient comp = Some c →
  vaultclient.KV2_Get lib c (readOf comp) w = ((None, None), w1) →
  out (GetSecret lib comp key w) = Go.Panicked Go.nilDereference.
Proof.
  intros Hclient Hread. unfold GetSecret. rewrite Hclient. exec.
  by answer Hread.
Qed.

(** X15.  When the document has no ["data"] entry, or one that is not a
    map, the first assertion panics, whatever the key is; the panic names
    the dynamic type that was found. *)
Theorem GetSecret_data_not_a_map
    (comp : Component) (key : string) (c : Client) (w w1 : World)
    (doc : vaultclient.Secret) :
  vaultClient comp = Some c →
  vaultclient.KV2_Get lib c (readOf comp) w = ((Some doc, None), w1) →
  (∀ payload, vaultclient.Data doc !! "data" ≠ Some (Go.anyMap payload)) →
  out (GetSecret lib comp key w) =
    Go.Panicked
      (Go.interfaceConversion
         (Go.dynamicType (Go.index (vaultclient.Data doc) "data"))
         "map[string]interface {}").
Proof.
  intros Hclient Hread Hdata. unfold GetSecret. rewrite Hclient. exec.
  answer Hread. unfold Go.index in *.
  destruct (vaultclient.Data doc !! "data") as [[| | | | |payload]|]; cbn;
    try done.
  by destruct (Hdata payload).
Qed.

(** X16.  When the payload holds something other than a string at the key
    (a number, a boolean, a list, a map, null, or nothing), the second
    assertion panics; the panic names the dynamic type that was found. *)
Theorem GetSecret_value_not_a_string
    (comp : Component) (key : string) (c : Client) (w w1 : World)
    (doc : vaultclient.Secret) (payload : gmap string Go.any) :
  vaultClient comp = Some c →
  vaultclient.KV2_Get lib c (readOf comp) w = ((Some doc, None), w1) →
  vaultclient.Data doc !! "data" = Some (Go.anyMap payload) →
  (∀ value, payload !! key ≠ Some (Go.anyString value)) →
  out (GetSecret lib comp key w) =
    Go.Panicked
      (Go.interfaceConversion (Go.dynamicType (Go.index payload key))
         "string").
Proof.
  intros Hclient Hread Hdata Hkey. unfold GetSecret. rewrite Hclient. exec.
  answer Hread. unfold Go.index in *. rewrite Hdata. cbn.
  destruct (payload !! key) as [[|value| | | |]|]; cbn; try done.
  by destruct (Hkey value).
Qed.

(** X17.  [GetSecret] returns a secret with a nil error in one case only:
    the read gave a document and no error, the document's ["data"] entry is
    a map, and that map holds this very string at the key. *)
Theorem GetSecret_success_iff
    (comp : Component) (key : string) (c : Client) (w : World)
    (secret : string) :
  vaultClient comp = Some c →
  out (GetSecret lib comp key w) = Go.Returned (secret, None) ↔
  ∃ doc payload,
    (vaultclient.KV2_Get lib c (readOf comp) w).1 = (Some doc, None) ∧
    vaultclient.Data doc !! "data" = Some (Go.anyMap payload) ∧
    payload !! key = Some (Go.anyString secret).
Proof.
  intros Hclient. unfold GetSecret, Go.index. rewrite Hclient. exec.
  destruct (vaultclient.KV2_Get lib c _ w) as [[resp [err|]] w1]; cbn.
  { split; [done | by intros (? & ? & ? & _)]. }
  destruct resp as [doc|]; cbn.
  2: { split; [done | by intros (? & ? & ? & _)]. }
  destruct (vaultclient.Data doc !! "data") as [[| | | | |payload]|] eqn:Hd;
    cbn; try (split; [done | by intros (? & ? & [= <-] & ? & _); congruence]).
  destruct (payload !! key) as [[|value| | | |]|] eqn:Hk; cbn;
    try (split; [done |];
         intros (? & ? & [= <-] & ? & ?); congruence).
  split.
  - intros [= <-]. by exists doc, payload.
  - intros (? & ? & [= <-] & ? & ?). congruence.
Qed.

(** The trace of a call, however it ends. *)
Lemma GetSecret_trace
    (comp : Component) (key : string) (c : Client) (w : World) :
  vaultClient comp = Some c →
  trace (GetSecret lib comp key w) = [EvKV2Get c (readOf comp)].
Proof.
  intros Hclient. unfold GetSecret. rewrite Hclient. exec.
  destruct (vaultclient.KV2_Get lib c _ w) as [[resp [err|]] w1]; cbn;
    [done |].
  destruct resp as [doc|]; cbn; [| done].
  destruct (Go.assertMap _) as [secretMap|p|code]; cbn; [| done | done].
  destruct (Go.assertString _) as [value|p|code]; cbn; done.
Qed.


End MoreSecretProperties.

(** ** Concrete runs, continued *)

Lemma Validate_NewConfig_iff_witness :
  Validate "spaceName" "secretPath" (NewConfig example.env) = None.
Proof.
  apply (Validate_NewConfig_iff "spaceName" "secretPath" example.env).
  split; discriminate.
Defined.

Lemma NewConfig_paths_determine_space_witness :
  SpaceName (NewConfig example.env) =
  SpaceName (NewConfig {[ "SPACE_NAME" := "TeamSpace" ]}).
Proof.
  apply (NewConfig_paths_determine_space example.env
           {[ "SPACE_NAME" := "TeamSpace" ]}).
  left. reflexivity.
Defined.

Lemma NewComponent_invalid_config_exits_witness :
  NewComponent "spaceName" "secretPath"
    (scenario.lib (Some tt, None) None None (None, None))
    example.noSpace [WithLogger (zap.Named "test")] 0 =
    {| out := Go.Exited 1;
       world := 0;
       trace :=
         [EvLog (zap.Named "test") zap.FatalLevel
            "failed to validate Vault Provider config, spaceName is empty"] |}.
Proof.
  apply (NewComponent_invalid_config_exits "spaceName" "secretPath"
           (scenario.lib (Some tt, None) None None (None, None))
           example.noSpace [WithLogger (zap.Named "test")] 0
           (validationError "spaceName")).
  reflexivity.
Defined.

Lemma NewComponent_client_error_exits_witness :
  NewComponent "spaceName" "secretPath"
    (scenario.lib (None, Some scenario.badAddress) None None (None, None))
    example.config [WithURL "vault.test:8200"] 0 =
    {| out := Go.Exited 1;
       world := 2;
       trace :=
         [EvDefaultConfig;
          EvNewClient {| vaultclient.Address := "vault.test:8200" |};
          EvLog zap.L zap.FatalLevel
            "failed to initialize Vault client, err: parse address: missing protocol scheme"] |}.
Proof.
  apply (NewComponent_client_error_exits "spaceName" "secretPath"
           (scenario.lib (None, Some scenario.badAddress) None None
              (None, None))
           example.config [WithURL "vault.test:8200"] 0 1 2
           {| vaultclient.Address := "https://127.0.0.1:8200" |}
           None scenario.badAddress);
    reflexivity.
Defined.

Lemma NewComponent_auth_failure_exits_witness :
  NewComponent "spaceName" "secretPath"
    (scenario.lib (Some tt, None) (Some example.iamDenied)
       (Some example.roleDenied) (None, None))
    example.config [] 0 =
    {| out := Go.Exited 1;
       world := 4;
       trace :=
         [EvDefaultConfig;
          EvNewClient
            {| vaultclient.Address := "https://your.vault.server.url/" |};
          EvIAMLogin tt (getIAMLoginOptions example.config);
          EvLog zap.L zap.DebugLevel
            "Vault Client IAM auth failed with err: iam: permission denied";
          EvAppRoleLogin tt (getAppRoleLoginOptions example.config);
          EvLog zap.L zap.DebugLevel
            "Vault Client AppRole auth failed with err: approle: invalid secret id";
          EvLog zap.L zap.FatalLevel
            "failed to authenticate Vault client, err: iam: permission denied; approle: invalid secret id"] |}.
Proof.
  apply (NewComponent_auth_failure_exits "spaceName" "secretPath"
           (scenario.lib (Some tt, None) (Some example.iamDenied)
              (Some example.roleDenied) (None, None))
           example.config [] tt 0 1 2 3 4
           {| vaultclient.Address := "https://127.0.0.1:8200" |}
           example.iamDenied example.roleDenied);
    reflexivity.
Defined.

Lemma NewComponent_returned_component_witness :
  config example.component = example.config ∧
  Validate "spaceName" "secretPath" example.config = None.
Proof.
  pose proof
    (NewComponent_returned_component "spaceName" "secretPath"
       (scenario.lib (Some tt, None) None None (None, None))
       example.config [WithLogger (zap.Named "test")] 0
       example.component eq_refl) as (Hconfig & Hvalid & _).
  split; [exact Hconfig | exact Hvalid].
Defined.


Lemma NewComponent_loggers_witness :
  Forall (λ l, l = zap.Named "audit")
    (loggers
       (trace
          (NewComponent "spaceName" "secretPath"
             (scenario.lib (Some tt, None) (Some example.iamDenied) None
                (None, None))
             example.config [WithLogger (zap.Named "audit")] 0))).
Proof.
  refine (NewComponent_loggers "spaceName" "secretPath"
            (scenario.lib (Some tt, None) (Some example.iamDenied) None
               (None, None))
            example.config [WithLogger (zap.Named "audit")] 0 _).
  repeat constructor.
Defined.

Lemma NewComponent_IAM_only_witness :
  NewComponent "spaceName" "secretPath"
    (scenario.lib (Some tt, None) (Some example.iamDenied) None (None, None))
    example.config
    [WithLogger (zap.Named "test");
     WithIAMAuthProvider
       (scenario.lib (Some tt, None) (Some example.iamDenied) None
          (None, None))
       scenario.iamOptions;
     WithURL "vault.test:8200"] 0 =
    {| out := Go.Exited 1;
       world := 3;
       trace :=
         [EvDefaultConfig;
          EvNewClient {| vaultclient.Address := "vault.test:8200" |};
          EvIAMLogin tt scenario.iamOptions;
          EvLog (zap.Named "test") zap.FatalLevel
            "failed to authenticate Vault client, err: iam: permission denied"] |}.
Proof.
  apply (NewComponent_IAM_only "spaceName" "secretPath"
           (scenario.lib (Some tt, None) (Some example.iamDenied) None
              (None, None))
           example.config
           [WithLogger (zap.Named "test");
            WithIAMAuthProvider
              (scenario.lib (Some tt, None) (Some example.iamDenied) None
                 (None, None))
              scenario.iamOptions;
            WithURL "vault.test:8200"]
           [WithLogger (zap.Named "test")] [WithURL "vault.test:8200"]
           scenario.iamOptions tt 0 1 2 3
           {| vaultclient.Address := "https://127.0.0.1:8200" |}
           (Some example.iamDenied));
    try reflexivity.
  repeat constructor.
Defined.

Lemma NewComponent_AppRole_only_witness :
  NewComponent "spaceName" "secretPath"
    (scenario.lib (Some tt, None) None None (None, None))
    example.config
    [WithAppRoleAuthProvider
       (scenario.lib (Some tt, None) None None (None, None))
       scenario.roleOptions] 0 =
    {| out :=
         Go.Returned {| config := example.config; vaultClient := Some tt |};
       world := 3;
       trace :=
         [EvDefaultConfig;
          EvNewClient
            {| vaultclient.Address := "https://your.vault.server.url/" |};
          EvAppRoleLogin tt scenario.roleOptions] |}.
Proof.
  apply (NewComponent_AppRole_only "spaceName" "secretPath"
           (scenario.lib (Some tt, None) None None (None, None))
           example.config
           [WithAppRoleAuthProvider
              (scenario.lib (Some tt, None) None None (None, None))
              scenario.roleOptions]
           [] [] scenario.roleOptions tt 0 1 2 3
           {| vaultclient.Address := "https://127.0.0.1:8200" |} None);
    try reflexivity.
  constructor.
Defined.


Lemma GetSecret_one_read_witness :
  trace (GetSecret (example.lib None None (Some example.passwordDoc, None))
           example.component "missing" 0) =
    [EvKV2Get tt
       {| vaultclient.KV2_MountPath := "TeamSpace/secrets";
          vaultclient.KV2_SecretPath := "mysecret-dev" |}] ∧
  world (GetSecret (example.lib None None (Some example.passwordDoc, None))
           example.component "missing" 0) = 1.
Proof.
  apply (GetSecret_one_read
           (example.lib None None (Some example.passwordDoc, None))
           example.component "missing" tt 0).
  reflexivity.
Defined.

Lemma GetSecret_nil_document_witness :
  out (GetSecret (example.lib None None (None, None))
         example.component "password" 0) =
  Go.Panicked Go.nilDereference.
Proof.
  apply (GetSecret_nil_document (example.lib None None (None, None))
           example.component "password" tt 0 1);
    reflexivity.
Defined.

Lemma GetSecret_data_not_a_map_witness :
  out (GetSecret (example.lib None None (Some scenario.flatDoc, None))
         example.component "password" 0) =
  Go.Panicked (Go.interfaceConversion None "map[string]interface {}").
Proof.
  apply (GetSecret_data_not_a_map
           (example.lib None None (Some scenario.flatDoc, None))
           example.component "password" tt 0 1 scenario.flatDoc);
    try reflexivity.
  intros payload. discriminate.
Defined.

Lemma GetSecret_value_not_a_string_witness :
  out (GetSecret (example.lib None None (Some scenario.portDoc, None))
         example.component "port" 0) =
  Go.Panicked (Go.interfaceConversion (Some "json.Number") "string").
Proof.
  change (Some "json.Number")
    with (Go.dynamicType
            (Go.index
               {[ "port" := Go.anyNumber "8200";
                  "password" := Go.anyString "s3cr3t" ]} "port")).
  apply (GetSecret_value_not_a_string
           (example.lib None None (Some scenario.portDoc, None))
           example.component "port" tt 0 1 scenario.portDoc
           {[ "port" := Go.anyNumber "8200";
              "password" := Go.anyString "s3cr3t" ]});
    try reflexivity.
  intros value. discriminate.
Defined.

Lemma GetSecret_success_iff_witness :
  ∃ doc payload,
    (vaultclient.KV2_Get
       (example.lib None None (Some scenario.portDoc, None)) tt
       {| vaultclient.KV2_MountPath := "TeamSpace/secrets";
          vaultclient.KV2_SecretPath := "mysecret-dev" |} 0).1
      = (Some doc, None) ∧
    vaultclient.Data doc !! "data" = Some (Go.anyMap payload) ∧
    payload !! "password" = Some (Go.anyString "s3cr3t").
Proof.
  apply (GetSecret_success_iff
           (example.lib None None (Some scenario.portDoc, None))
           example.component "password" tt 0 "s3cr3t");
    reflexivity.
Defined.

